(** * College / Student GraphQL resolvers over an ORM session

    A shallow embedding of the resolvers of [api/schema.py] (the primary
    tree) and [schema.py] (the legacy tree) together with the table
    declarations of [api/models.py].  The resolvers are straight-line
    programs over a SQLAlchemy session; they are embedded in a state and
    exception monad whose state is the session: the committed tables, the
    transaction's view of them, the instances built during the call, the
    deletions waiting for the next flush, and the trace of session calls. *)

From stdpp Require Import gmap strings list fin_maps.

Local Open Scope Z_scope.

(** ** Python exceptions the resolvers and the session can raise *)

Inductive exn :=
  | ValueError (msg : string)
  | TypeError (msg : string)
  | InvalidRequestError (msg : string)
  | ObjectDeletedError.

Inductive result (A : Type) :=
  | Return (a : A)
  | Raise (e : exn).
Arguments Return {A} a.
Arguments Raise {A} e.

(** ** api/models.py

    A row is kept under its primary key, so [id] is the key of the table
    and not a field of the record.  [College.name], [College.location],
    [Student.name] and [Student.age] are only ever written from non-null
    GraphQL arguments.  [Student.college_id] is a nullable foreign key
    ([Column(Integer, ForeignKey("colleges.id"))]); the ORM itself writes
    NULL into it, so it is an [option]. *)

Inductive table := Colleges | Students.

Record College := mkCollege {
  College_name : string;
  College_location : string }.

Record Student := mkStudent {
  Student_name : string;
  Student_age : Z;
  Student_college_id : option Z }.

Record Store := mkStore {
  colleges_tbl : gmap Z College;
  students_tbl : gmap Z Student }.

#[global] Instance table_eq_dec : EqDecision table.
Proof. solve_decision. Defined.
#[global] Instance College_eq_dec : EqDecision College.
Proof. solve_decision. Defined.
#[global] Instance Student_eq_dec : EqDecision Student.
Proof. solve_decision. Defined.

(** [College.students = relationship("Student", back_populates="college")]
    is a one-to-many relationship declared with no [cascade] and no
    [passive_deletes], so it has the ORM's defaults ("save-update, merge",
    no "delete"): when a College is deleted, the flush loads its students
    and de-associates them, writing NULL into their [college_id], and
    then removes the College row.  [Student.college] is the many-to-one
    side; deleting a Student touches no College. *)

Definition nullify_college (pk : Z) (s : Student) : Student :=
  if decide (Student_college_id s = Some pk)
  then mkStudent (Student_name s) (Student_age s) None
  else s.

Definition delete_row (t : table) (pk : Z) (st : Store) : Store :=
  match t with
  | Colleges => mkStore (delete pk (colleges_tbl st))
                        (nullify_college pk <$> students_tbl st)
  | Students => mkStore (colleges_tbl st) (delete pk (students_tbl st))
  end.

(** ** Primary keys

    The store assigns the primary key of an inserted row.  The engine is
    configured outside the resolvers; all that is used of it is that a
    new key is not one of the keys of the table. *)

Class Allocator := {
  alloc : gset Z → Z;
  alloc_fresh : ∀ X : gset Z, alloc X ∉ X }.

(** One more than the largest key, 1 on an empty table. *)
Definition next_rowid (X : gset Z) : Z := 1 + set_fold Z.max 0 X.

#[global] Instance rowid_allocator : Allocator.
Proof.
  refine {| alloc := next_rowid; alloc_fresh := _ |}.
  intros X Hin.
  assert (Hle : ∀ (l : list Z) (x : Z), x ∈ l → x ≤ foldr Z.max 0 l).
  { induction l as [|y l IH]; intros x Hx.
    - by apply elem_of_nil in Hx.
    - apply elem_of_cons in Hx as [->|Hx]; simpl; [lia|].
      specialize (IH x Hx). lia. }
  apply elem_of_elements, Hle in Hin.
  unfold next_rowid, set_fold in Hin. simpl in Hin. lia.
Defined.

(** ** The session *)

Inductive event :=
  | Acquire
  | Close
  | Select (t : table)
  | Add (t : table)
  | Delete (t : table)
  | Commit
  | Refresh (t : table).

#[global] Instance event_eq_dec : EqDecision event.
Proof. solve_decision. Defined.

(** State of an instance built by a constructor call in the resolver. *)
Inductive nstate :=
  | Transient
  | Pending
  | Persistent (pk : Z).

Record Session := mkSession {
  committed : Store;
  working : Store;
  new_colleges : list (College * nstate);
  new_students : list (Student * nstate);
  deleted : list (table * Z);
  trace : list event }.

Definition with_working (st : Store) (s : Session) : Session :=
  mkSession (committed s) st (new_colleges s) (new_students s)
            (deleted s) (trace s).

Definition with_deleted (d : list (table * Z)) (s : Session) : Session :=
  mkSession (committed s) (working s) (new_colleges s) (new_students s)
            d (trace s).

Definition with_trace (t : list event) (s : Session) : Session :=
  mkSession (committed s) (working s) (new_colleges s) (new_students s)
            (deleted s) t.

(** A mapped class: its table in the store and its instances in the
    session. *)
Class Model (R : Type) := {
  tablename : table;
  rows : Store → gmap Z R;
  set_rows : gmap Z R → Store → Store;
  news : Session → list (R * nstate);
  set_news : list (R * nstate) → Session → Session }.

#[global] Instance College_model : Model College := {
  tablename := Colleges;
  rows := colleges_tbl;
  set_rows m st := mkStore m (students_tbl st);
  news := new_colleges;
  set_news l s := mkSession (committed s) (working s) l (new_students s)
                            (deleted s) (trace s) }.

#[global] Instance Student_model : Model Student := {
  tablename := Students;
  rows := students_tbl;
  set_rows m st := mkStore (colleges_tbl st) m;
  news := new_students;
  set_news l s := mkSession (committed s) (working s) (new_colleges s) l
                            (deleted s) (trace s) }.

(** A Python variable bound to a mapped instance: either the [n]-th
    instance built in this call, or the instance loaded for a primary
    key.  Attribute reads and writes go through the session, so that two
    names for one instance see the same state. *)
Inductive Ref (R : Type) :=
  | New (n : nat)
  | Loaded (pk : Z).
Arguments New {R} n.
Arguments Loaded {R} pk.

(** ** The monad of a resolver body *)

Definition M (A : Type) : Type := Session → result A * Session.

#[global] Instance M_ret : MRet M := λ A a s, (Return a, s).

#[global] Instance M_bind : MBind M := λ A B f m s,
  match m s with
  | (Return a, s') => f a s'
  | (Raise e, s') => (Raise e, s')
  end.

#[global] Instance M_fmap : FMap M := λ A B f m s,
  match m s with
  | (Return a, s') => (Return (f a), s')
  | (Raise e, s') => (Raise e, s')
  end.

Definition raise {A} (e : exn) : M A := λ s, (Raise e, s).

(** A step given by its effect on the session. *)
Definition step {A} (f : Session → result A * Session) : M A := f.

Definition gets {A} (f : Session → A) : M A :=
  λ s, (Return (f s), s).

Definition modify (f : Session → Session) : M () :=
  λ s, (Return (), f s).

Definition emit (ev : event) : M () :=
  modify (λ s, with_trace (trace s ++ [ev]) s).

(** [[f(x) for x in l]] *)
Fixpoint comprehension {A B} (f : A → M B) (l : list A) : M (list B) :=
  match l with
  | [] => mret []
  | x :: l' => y ← f x; ys ← comprehension f l'; mret (y :: ys)
  end.

Definition start (st : Store) : Session :=
  mkSession st st [] [] [] [].

(** What a call leaves behind: its result or exception, the committed
    tables, and the session calls it made. *)
Definition run {A} (m : M A) (st : Store) : result A * Store * list event :=
  let '(r, s) := m (start st) in (r, committed s, trace s).

(** ** Session calls ([Session] of the ORM) *)

(** The handle a resolver binds to [db]. *)
Inductive Db := SessionLocal.

(** Modelled from the spec: [get_db] of [api/database.py] and of
    [database.py], which are not among the sources.  The persistence
    gateway is [acquire_session() -> Session]: a call hands out a session
    that is a unit of work of its own over the committed rows.  The
    primary tree reads it with [next(get_db())], the legacy tree with
    [get_db()]. *)
Definition acquire_session : M Db :=
  λ s, (Return SessionLocal,
        mkSession (committed s) (committed s) [] [] []
                  (trace s ++ [Acquire])).

(** [db.close()]: the unit of work is dropped, nothing is committed. *)
Definition close (db : Db) : M () :=
  λ s, (Return (),
        mkSession (committed s) (committed s) [] [] []
                  (trace s ++ [Close])).

(** [db.query(R)] with the [filter(R.id == id)] calls applied to it: a
    condition on the primary key. *)
Record Query (R : Type) := mkQuery { q_where : Z → bool }.
Arguments mkQuery {R} q_where.
Arguments q_where {R} q pk.

Definition query (db : Db) (R : Type) `{Model R} : Query R :=
  mkQuery (λ _, true).

Definition filter_id {R} (q : Query R) (id : Z) : Query R :=
  mkQuery (λ pk, q_where q pk && bool_decide (pk = id)).

(** The rows a query selects, in the order the table yields them. *)
Definition matching {R} `{Model R} (q : Query R) (s : Session)
  : list (Z * R) :=
  filter (λ kv, q_where q kv.1) (map_to_list (rows (working s))).

(** [q.all()] *)
Definition all_ {R} `{Model R} (q : Query R) : M (list (Ref R)) :=
  emit (Select tablename);;
  gets (λ s, (λ kv, Loaded kv.1) <$> matching q s).

(** [q.first()]: the first selected instance, or [None]. *)
Definition first {R} `{Model R} (q : Query R) : M (option (Ref R)) :=
  emit (Select tablename);;
  gets (λ s, (λ kv, Loaded kv.1) <$> head (matching q s)).

(** [R(...)]: a new instance; it has no primary key until it is flushed. *)
Definition new_ {R} `{Model R} (x : R) : M (Ref R) :=
  λ s, (Return (New (length (news s))),
        set_news (news s ++ [(x, Transient)]) s).

Definition mark_pending {R} (e : R * nstate) : R * nstate :=
  match e with
  | (x, Transient) => (x, Pending)
  | _ => e
  end.

(** [db.add(r)] *)
Definition add {R} `{Model R} (db : Db) (r : Ref R) : M () :=
  emit (Add tablename);;
  match r with
  | New n => modify (λ s, set_news (alter mark_pending n (news s)) s)
  | Loaded _ => mret ()
  end.

(** [db.delete(r)]: the row goes at the next flush. *)
Definition delete_ {R} `{Model R} (db : Db) (r : Ref R) : M () :=
  emit (Delete tablename);;
  match r with
  | Loaded pk =>
      modify (λ s, with_deleted (deleted s ++ [(tablename, pk)]) s)
  | New n =>
      step (λ s, match news s !! n with
           | Some (_, Persistent pk) =>
               (Return (),
                with_deleted (deleted s ++ [(tablename, pk)]) s)
           | _ => (Raise (InvalidRequestError "Instance is not persisted"),
                   s)
           end)
  end.

(** Flushing the pending instances of one class: each is inserted under a
    key the table does not hold. *)
Fixpoint flush_new {R} `{Model R} `{Allocator}
    (l : list (R * nstate)) (st : Store) : list (R * nstate) * Store :=
  match l with
  | [] => ([], st)
  | (x, Pending) :: l' =>
      let pk := alloc (dom (rows st)) in
      let '(l'', st') := flush_new l' (set_rows (<[pk := x]> (rows st)) st) in
      ((x, Persistent pk) :: l'', st')
  | e :: l' =>
      let '(l'', st') := flush_new l' st in (e :: l'', st')
  end.

Definition flush_deleted (d : list (table * Z)) (st : Store) : Store :=
  foldl (λ st' e, delete_row e.1 e.2 st') st d.

Definition flush `{Allocator} (s : Session) : Session :=
  let '(nc, st1) := flush_new (new_colleges s) (working s) in
  let '(ns, st2) := flush_new (new_students s) st1 in
  mkSession (committed s) (flush_deleted (deleted s) st2) nc ns []
            (trace s).

(** [db.commit()]: flush, then the transaction's view becomes the
    committed state. *)
Definition commit `{Allocator} (db : Db) : M () :=
  emit Commit;;
  modify (λ s, let s' := flush s in
               mkSession (working s') (working s') (new_colleges s')
                         (new_students s') (deleted s') (trace s')).

(** The state of the instance behind a reference. *)
Definition load {R} `{Model R} (r : Ref R) : M R :=
  λ s, match r with
       | Loaded pk =>
           match rows (working s) !! pk with
           | Some x => (Return x, s)
           | None => (Raise ObjectDeletedError, s)
           end
       | New n =>
           match news s !! n with
           | Some (x, Persistent pk) =>
               match rows (working s) !! pk with
               | Some y => (Return y, s)
               | None => (Raise ObjectDeletedError, s)
               end
           | Some (x, _) => (Return x, s)
           | None => (Raise (InvalidRequestError "no such instance"), s)
           end
       end.

(** [r.attr] for a column [attr] other than the primary key. *)
Definition getattr {R A} `{Model R} (r : Ref R) (attr : R → A) : M A :=
  x ← load r; mret (attr x).

(** [r.id]: [None] until the instance has been flushed. *)
Definition get_id {R} `{Model R} (r : Ref R) : M (option Z) :=
  λ s, match r with
       | Loaded pk => (Return (Some pk), s)
       | New n =>
           match news s !! n with
           | Some (_, Persistent pk) => (Return (Some pk), s)
           | Some _ => (Return None, s)
           | None => (Raise (InvalidRequestError "no such instance"), s)
           end
       end.

Definition set_first {R} (upd : R → R) (e : R * nstate) : R * nstate :=
  (upd e.1, e.2).

(** [r.attr = v], given as the update [upd] of the instance. *)
Definition setattr {R} `{Model R} (r : Ref R) (upd : R → R) : M () :=
  λ s, match r with
       | Loaded pk =>
           (Return (),
            with_working
              (set_rows (alter upd pk (rows (working s))) (working s)) s)
       | New n =>
           match news s !! n with
           | Some (_, Persistent pk) =>
               (Return (),
                with_working
                  (set_rows (alter upd pk (rows (working s))) (working s))
                  s)
           | Some _ =>
               (Return (), set_news (alter (set_first upd) n (news s)) s)
           | None => (Raise (InvalidRequestError "no such instance"), s)
           end
       end.

(** [db.refresh(r)]: reload the instance from its row. *)
Definition refresh {R} `{Model R} (db : Db) (r : Ref R) : M () :=
  emit (Refresh tablename);;
  step (λ s, match r with
       | Loaded pk =>
           match rows (working s) !! pk with
           | Some _ => (Return (), s)
           | None =>
               (Raise (InvalidRequestError "Could not refresh instance"), s)
           end
       | New n =>
           match news s !! n with
           | Some (_, Persistent pk) =>
               match rows (working s) !! pk with
               | Some _ => (Return (), s)
               | None =>
                   (Raise (InvalidRequestError "Could not refresh instance"),
                    s)
               end
           | _ =>
               (Raise (InvalidRequestError "Instance is not persistent"), s)
           end
       end).

(** ** The GraphQL object types ([@strawberry.type])

    The annotations [int] and [str] are not checked when an object is
    built, so an [id] or [college_id] field holds whatever the column
    held, NULL included.  The generated constructor takes keyword
    arguments only and has no defaults: leaving one out raises
    [TypeError]. *)

Record CollegeType := mkCollegeType {
  CollegeType_id : option Z;
  CollegeType_name : string;
  CollegeType_location : string }.

Record StudentType := mkStudentType {
  StudentType_id : option Z;
  StudentType_name : string;
  StudentType_age : Z;
  StudentType_college_id : option Z }.

Inductive kwarg (A : Type) :=
  | Given (a : A)
  | Missing.
Arguments Given {A} a.
Arguments Missing {A}.

Definition missing_argument : exn :=
  TypeError "__init__() missing 1 required keyword-only argument".

Definition CollegeType_init (id : kwarg (option Z))
    (name location : kwarg string) : M CollegeType :=
  match id, name, location with
  | Given i, Given n, Given l => mret (mkCollegeType i n l)
  | _, _, _ => raise missing_argument
  end.

Definition StudentType_init (id : kwarg (option Z)) (name : kwarg string)
    (age : kwarg Z) (college_id : kwarg (option Z)) : M StudentType :=
  match id, name, age, college_id with
  | Given i, Given n, Given a, Given c => mret (mkStudentType i n a c)
  | _, _, _, _ => raise missing_argument
  end.

(** A mapped instance handed out of the session as a value. *)
Record Instance (R : Type) := mkInstance {
  instance_id : option Z;
  instance_state : R }.
Arguments mkInstance {R} instance_id instance_state.
Arguments instance_id {R} i.
Arguments instance_state {R} i.

(** The operations of the GraphQL schema and what a resolver returns. *)
Inductive request :=
  | Colleges_query
  | Students_query
  | Create_college (name location : string)
  | Update_college (id : Z) (name location : string)
  | Delete_college (id : Z)
  | Create_student (name : string) (age : Z) (college_id : Z)
  | Update_student (id : Z) (name : string) (age : Z)
  | Delete_student (id : Z).

Inductive response :=
  | College_list (l : list CollegeType)
  | Student_list (l : list StudentType)
  | College_object (c : CollegeType)
  | Student_object (s : StudentType)
  | College_instance (c : Instance College)
  | Boolean (b : bool).

(** ** api/schema.py, the primary tree *)

Module Api.
Section resolvers.
Context {allocator : Allocator}.

Definition next_get_db : M Db := acquire_session.

(** [CollegeType(id=college.id, name=college.name,
    location=college.location)], the expression every College resolver
    returns, and its Student counterpart. *)
Definition college_view (college : Ref College) : M CollegeType :=
  id ← get_id college;
  name ← getattr college College_name;
  location ← getattr college College_location;
  CollegeType_init (Given id) (Given name) (Given location).

Definition student_view (student : Ref Student) : M StudentType :=
  id ← get_id student;
  name ← getattr student Student_name;
  age ← getattr student Student_age;
  college_id ← getattr student Student_college_id;
  StudentType_init (Given id) (Given name) (Given age) (Given college_id).

Definition colleges : M (list CollegeType) :=
  db ← next_get_db;
  colleges ← all_ (query db College);
  comprehension college_view colleges.

Definition students : M (list StudentType) :=
  db ← next_get_db;
  students ← all_ (query db Student);
  comprehension student_view students.

Definition create_college (name location : string) : M CollegeType :=
  db ← next_get_db;
  college ← new_ (mkCollege name location);
  add db college;;
  commit db;;
  refresh db college;;
  college_view college.

Definition update_college (id : Z) (name location : string)
  : M CollegeType :=
  db ← next_get_db;
  college ← first (filter_id (query db College) id);
  match college with
  | None => raise (ValueError "College not found")
  | Some college =>
      setattr college (λ c, mkCollege name (College_location c));;
      setattr college (λ c, mkCollege (College_name c) location);;
      commit db;;
      college_view college
  end.

Definition delete_college (id : Z) : M bool :=
  db ← next_get_db;
  college ← first (filter_id (query db College) id);
  match college with
  | Some college =>
      delete_ db college;;
      commit db;;
      mret true
  | None => mret false
  end.

Definition create_student (name : string) (age : Z) (college_id : Z)
  : M StudentType :=
  db ← next_get_db;
  college ← first (filter_id (query db College) college_id);
  match college with
  | None => raise (ValueError "College not found")
  | Some _ =>
      student ← new_ (mkStudent name age (Some college_id));
      add db student;;
      commit db;;
      refresh db student;;
      student_view student
  end.

Definition update_student (id : Z) (name : string) (age : Z)
  : M StudentType :=
  db ← next_get_db;
  student ← first (filter_id (query db Student) id);
  match student with
  | None => raise (ValueError "Student not found")
  | Some student =>
      setattr student
        (λ s, mkStudent name (Student_age s) (Student_college_id s));;
      setattr student
        (λ s, mkStudent (Student_name s) age (Student_college_id s));;
      commit db;;
      student_view student
  end.

Definition delete_student (id : Z) : M bool :=
  db ← next_get_db;
  student ← first (filter_id (query db Student) id);
  match student with
  | Some student =>
      delete_ db student;;
      commit db;;
      mret true
  | None => mret false
  end.

(** [strawberry.Schema(query=Query, mutation=Mutation)] *)
Definition schema (q : request) : M response :=
  match q with
  | Colleges_query => College_list <$> colleges
  | Students_query => Student_list <$> students
  | Create_college name location =>
      College_object <$> create_college name location
  | Update_college id name location =>
      College_object <$> update_college id name location
  | Delete_college id => Boolean <$> delete_college id
  | Create_student name age college_id =>
      Student_object <$> create_student name age college_id
  | Update_student id name age =>
      Student_object <$> update_student id name age
  | Delete_student id => Boolean <$> delete_student id
  end.

End resolvers.
End Api.

(** ** schema.py, the legacy tree

    It has the two queries and the two create mutations only, and reads
    the session with [get_db()]. *)

Module Legacy.
Section resolvers.
Context {allocator : Allocator}.

Definition get_db : M Db := acquire_session.

Definition colleges : M (list CollegeType) :=
  db ← get_db;
  colleges ← all_ (query db College);
  comprehension
    (λ college,
       id ← get_id college;
       name ← getattr college College_name;
       location ← getattr college College_location;
       CollegeType_init (Given id) (Given name) (Given location))
    colleges.

(** A plain method: it carries no [@strawberry.field]. *)
Definition students : M (list StudentType) :=
  db ← get_db;
  students ← all_ (query db Student);
  comprehension
    (λ student,
       id ← get_id student;
       name ← getattr student Student_name;
       age ← getattr student Student_age;
       college_id ← getattr student Student_college_id;
       StudentType_init (Given id) (Given name) (Given age)
                        (Given college_id))
    students.

(** Returns [College(id=..., name=..., location=...)]: a second mapped
    instance, never added to the session. *)
Definition create_college (name location : string)
  : M (Instance College) :=
  db ← get_db;
  college ← new_ (mkCollege name location);
  add db college;;
  commit db;;
  refresh db college;;
  id ← get_id college;
  name' ← getattr college College_name;
  location' ← getattr college College_location;
  mret (mkInstance id (mkCollege name' location')).

(** [StudentType(id=..., name=..., college_id=...)]: no [age]. *)
Definition create_student (name : string) (age : Z) (college_id : Z)
  : M StudentType :=
  db ← get_db;
  college ← first (filter_id (query db College) college_id);
  match college with
  | None => raise (ValueError "college not found")
  | Some _ =>
      student ← new_ (mkStudent name age (Some college_id));
      add db student;;
      commit db;;
      refresh db student;;
      id ← get_id student;
      name' ← getattr student Student_name;
      college_id' ← getattr student Student_college_id;
      StudentType_init (Given id) (Given name') Missing (Given college_id')
  end.

(** [strawberry.Schema(query=Query, mutation=Mutation)]: the fields are
    the decorated methods. *)
Definition schema (q : request) : option (M response) :=
  match q with
  | Colleges_query => Some (College_list <$> colleges)
  | Create_college name location =>
      Some (College_instance <$> create_college name location)
  | Create_student name age college_id =>
      Some (Student_object <$> create_student name age college_id)
  | _ => None
  end.

(** A request against the legacy schema, when it has the field. *)
Definition resolve (q : request) (st : Store)
  : option (result response * Store * list event) :=
  (λ m, run m st) <$> schema q.

End resolvers.
End Legacy.

(** ** Observations on a store and on a trace *)

(** The rows [colleges()] and [students()] map into views. *)
Definition college_views (st : Store) : list CollegeType :=
  (λ kv, mkCollegeType (Some kv.1) (College_name kv.2)
                       (College_location kv.2))
    <$> map_to_list (colleges_tbl st).

Definition student_views (st : Store) : list StudentType :=
  (λ kv, mkStudentType (Some kv.1) (Student_name kv.2) (Student_age kv.2)
                       (Student_college_id kv.2))
    <$> map_to_list (students_tbl st).

(** The three parts of what [run] gives. *)
Definition outcome {A} (x : result A * Store * list event) : result A :=
  x.1.1.
Definition store_after {A} (x : result A * Store * list event) : Store :=
  x.1.2.
Definition calls {A} (x : result A * Store * list event) : list event :=
  x.2.

(** The result is a raised [ValueError], whatever its message. *)
Definition raises_ValueError {A} (r : result A) : Prop :=
  match r with
  | Raise (ValueError _) => True
  | _ => False
  end.

(** How often a session call occurs in a trace. *)
Definition count (ev : event) (t : list event) : nat :=
  length (filter (λ e, e = ev) t).

(** Small tables for examples. *)
Definition stanford : College := mkCollege "Stanford" "California".
Definition alice : Student := mkStudent "Alice" 21 (Some 1).

Definition empty_store : Store := mkStore ∅ ∅.
Definition one_college : Store := mkStore {[ 1 := stanford ]} ∅.
Definition college_with_student : Store :=
  mkStore {[ 1 := stanford ]} {[ 1 := alice ]}.

(** A student whose College does not exist. *)
Definition dangling_student : Store :=
  mkStore ∅ {[ 1 := mkStudent "Alice" 21 (Some 7) ]}.

(** Every [college_id] that is not NULL is the key of a College row. *)
Definition referential_integrity (st : Store) : Prop :=
  map_Forall (λ _ s, match Student_college_id s with
                     | Some c => is_Some (colleges_tbl st !! c)
                     | None => True
                     end) (students_tbl st).

#[global] Instance referential_integrity_dec (st : Store) :
  Decision (referential_integrity st).
Proof.
  apply map_Forall_dec. intros k s.
  destruct (Student_college_id s); apply _.
Defined.

(** The guards [if not college: raise] and [if not student: raise] of
    the mutations: the row a request names is not there. *)
Definition target_missing (q : request) (st : Store) : Prop :=
  match q with
  | Update_college id _ _ => colleges_tbl st !! id = None
  | Create_student _ _ college_id => colleges_tbl st !! college_id = None
  | Update_student id _ _ => students_tbl st !! id = None
  | _ => False
  end.

(** Unfolding the session calls of a resolver body. *)
Ltac session_calls :=
  unfold refresh, getattr, load, get_id, setattr, add, delete_, commit,
    new_, all_, CollegeType_init, StudentType_init, raise,
    mbind, M_bind, mret, M_ret, fmap, M_fmap, emit, modify, step, gets;
  simpl.

Ltac enter_resolver :=
  unfold mbind at 1, M_bind at 1; simpl;
  unfold mbind at 1, M_bind at 1.

(** * Properties *)

(** ** Session calls *)

Lemma head_filter_key {R} (m : gmap Z R) (id : Z) (p : Z → bool) :
  (∀ k, p k = bool_decide (k = id)) →
  head (filter (λ kv : Z * R, p kv.1) (map_to_list m))
  = (λ x, (id, x)) <$> m !! id.
Proof.
  intros Hp.
  destruct (filter _ _) as [|[k x] l] eqn:Hf; simpl.
  - destruct (m !! id) as [x|] eqn:Hm; [|done].
    apply elem_of_map_to_list in Hm.
    assert (Hin : (id, x) ∈ filter (λ kv : Z * R, p kv.1) (map_to_list m)).
    { apply list_elem_of_filter. split; [|done]. simpl.
      rewrite Hp. by rewrite bool_decide_eq_true_2. }
    rewrite Hf in Hin. by apply elem_of_nil in Hin.
  - assert (Hin : (k, x) ∈ filter (λ kv : Z * R, p kv.1) (map_to_list m)).
    { rewrite Hf. left. }
    apply list_elem_of_filter in Hin as [Hk Hin]. simpl in Hk.
    rewrite Hp in Hk. apply bool_decide_unpack in Hk. subst k.
    apply elem_of_map_to_list in Hin. by rewrite Hin.
Qed.

(** A query filtered on the primary key finds the row under that key. *)
Lemma first_filter_id {R} `{Model R} (db : Db) (id : Z) (s : Session) :
  first (filter_id (query db R) id) s
  = (Return ((λ _, Loaded id) <$> rows (working s) !! id),
     with_trace (trace s ++ [Select tablename]) s).
Proof.
  unfold first, matching, mbind, M_bind, emit, modify, gets.
  rewrite (head_filter_key _ id); [|done].
  by destruct (rows _ !! id).
Qed.

Lemma filter_all {A} (l : list A) : filter (λ _ : A, Is_true true) l = l.
Proof.
  induction l as [|x l IH]; [done|].
  rewrite filter_cons_True; [by rewrite IH|done].
Qed.

(** An unfiltered query yields every row of the table. *)
Lemma all_query {R} `{Model R} (db : Db) (s : Session) :
  all_ (query db R) s
  = (Return ((λ kv, Loaded kv.1) <$> map_to_list (rows (working s))),
     with_trace (trace s ++ [Select tablename]) s).
Proof.
  unfold all_, matching, query, mbind, M_bind, emit, modify, gets.
  cbn [q_where]. by rewrite filter_all.
Qed.

Lemma alter_alter_insert {R} (f g : R → R) (m : gmap Z R) (id : Z) (x : R) :
  m !! id = Some x → alter g id (alter f id m) = <[id := g (f x)]> m.
Proof.
  intros Hx. apply map_eq. intros j.
  destruct (decide (j = id)) as [->|Hne].
  - by rewrite lookup_alter_eq, lookup_alter_eq, Hx, lookup_insert_eq.
  - by rewrite lookup_alter_ne, lookup_alter_ne, lookup_insert_ne.
Qed.

Lemma comprehension_cons {A B} (f : A → M B) (x : A) (l : list A)
    (s : Session) :
  comprehension f (x :: l) s =
    match f x s with
    | (Return y, s') =>
        match comprehension f l s' with
        | (Return ys, s'') => (Return (y :: ys), s'')
        | (Raise e, s'') => (Raise e, s'')
        end
    | (Raise e, s') => (Raise e, s')
    end.
Proof. reflexivity. Qed.

Lemma run_fmap {A B} (f : A → B) (m : M A) (st : Store) :
  run (f <$> m) st =
    (match (run m st).1.1 with
     | Return a => Return (f a)
     | Raise e => Raise e
     end, (run m st).1.2, (run m st).2).
Proof.
  unfold run, fmap, M_fmap. by destruct (m (start st)) as [[a|e] s].
Qed.

(** ** What each resolver computes *)

Section closed_forms.
Context {allocator : Allocator}.

Lemma college_view_loaded (pk : Z) (c : College) (s : Session) :
  colleges_tbl (working s) !! pk = Some c →
  Api.college_view (Loaded pk) s
  = (Return (mkCollegeType (Some pk) (College_name c) (College_location c)),
     s).
Proof.
  intros Hc. unfold Api.college_view. session_calls.
  by repeat (rewrite Hc; simpl).
Qed.

Lemma student_view_loaded (pk : Z) (x : Student) (s : Session) :
  students_tbl (working s) !! pk = Some x →
  Api.student_view (Loaded pk) s
  = (Return (mkStudentType (Some pk) (Student_name x) (Student_age x)
                           (Student_college_id x)), s).
Proof.
  intros Hx. unfold Api.student_view. session_calls.
  by repeat (rewrite Hx; simpl).
Qed.

Lemma comprehension_college_view (l : list (Z * College)) (s : Session) :
  (∀ kv, kv ∈ l → colleges_tbl (working s) !! kv.1 = Some kv.2) →
  comprehension Api.college_view ((λ kv, Loaded kv.1) <$> l) s
  = (Return ((λ kv, mkCollegeType (Some kv.1) (College_name kv.2)
                                  (College_location kv.2)) <$> l), s).
Proof.
  induction l as [|[k c] l IH]; intros Hl; [done|].
  rewrite !fmap_cons, comprehension_cons.
  rewrite (college_view_loaded k c); [|apply (Hl (k, c)); left].
  rewrite IH; [done|]. intros kv Hkv. apply Hl. by right.
Qed.

Lemma comprehension_student_view (l : list (Z * Student)) (s : Session) :
  (∀ kv, kv ∈ l → students_tbl (working s) !! kv.1 = Some kv.2) →
  comprehension Api.student_view ((λ kv, Loaded kv.1) <$> l) s
  = (Return ((λ kv, mkStudentType (Some kv.1) (Student_name kv.2)
                                  (Student_age kv.2)
                                  (Student_college_id kv.2)) <$> l), s).
Proof.
  induction l as [|[k x] l IH]; intros Hl; [done|].
  rewrite !fmap_cons, comprehension_cons.
  rewrite (student_view_loaded k x); [|apply (Hl (k, x)); left].
  rewrite IH; [done|]. intros kv Hkv. apply Hl. by right.
Qed.

Lemma colleges_run (st : Store) :
  run Api.colleges st
  = (Return (college_views st), st, [Acquire; Select Colleges]).
Proof.
  unfold run, Api.colleges, Api.next_get_db.
  enter_resolver. rewrite all_query.
  rewrite comprehension_college_view; [done|].
  intros [k c] Hkc. simpl. by apply elem_of_map_to_list.
Qed.

Lemma students_run (st : Store) :
  run Api.students st
  = (Return (student_views st), st, [Acquire; Select Students]).
Proof.
  unfold run, Api.students, Api.next_get_db.
  enter_resolver. rewrite all_query.
  rewrite comprehension_student_view; [done|].
  intros [k x] Hkx. simpl. by apply elem_of_map_to_list.
Qed.

Lemma create_college_run (name location : string) (st : Store) :
  run (Api.create_college name location) st =
    (Return (mkCollegeType (Some (alloc (dom (colleges_tbl st))))
                           name location),
     mkStore (<[alloc (dom (colleges_tbl st)) := mkCollege name location]>
                (colleges_tbl st))
             (students_tbl st),
     [Acquire; Add Colleges; Commit; Refresh Colleges]).
Proof.
  unfold run, Api.create_college, Api.next_get_db, Api.college_view.
  session_calls. by repeat (rewrite lookup_insert_eq; simpl).
Qed.

Lemma update_college_run (id : Z) (name location : string) (st : Store) :
  run (Api.update_college id name location) st =
    match colleges_tbl st !! id with
    | Some _ =>
        (Return (mkCollegeType (Some id) name location),
         mkStore (<[id := mkCollege name location]> (colleges_tbl st))
                 (students_tbl st),
         [Acquire; Select Colleges; Commit])
    | None => (Raise (ValueError "College not found"), st,
               [Acquire; Select Colleges])
    end.
Proof.
  unfold run, Api.update_college, Api.next_get_db, Api.college_view.
  enter_resolver. rewrite first_filter_id. simpl.
  destruct (colleges_tbl st !! id) as [c|] eqn:Hc; simpl; [|done].
  session_calls. rewrite (alter_alter_insert _ _ _ _ _ Hc). simpl.
  by repeat (rewrite lookup_insert_eq; simpl).
Qed.

Lemma delete_college_run (id : Z) (st : Store) :
  run (Api.delete_college id) st =
    match colleges_tbl st !! id with
    | Some _ => (Return true, delete_row Colleges id st,
                 [Acquire; Select Colleges; Delete Colleges; Commit])
    | None => (Return false, st, [Acquire; Select Colleges])
    end.
Proof.
  unfold run, Api.delete_college, Api.next_get_db.
  enter_resolver. rewrite first_filter_id. simpl.
  by destruct (colleges_tbl st !! id).
Qed.

Lemma create_student_run (name : string) (age college_id : Z) (st : Store) :
  run (Api.create_student name age college_id) st =
    match colleges_tbl st !! college_id with
    | Some _ =>
        (Return (mkStudentType (Some (alloc (dom (students_tbl st))))
                               name age (Some college_id)),
         mkStore (colleges_tbl st)
                 (<[alloc (dom (students_tbl st))
                    := mkStudent name age (Some college_id)]>
                    (students_tbl st)),
         [Acquire; Select Colleges; Add Students; Commit; Refresh Students])
    | None => (Raise (ValueError "College not found"), st,
               [Acquire; Select Colleges])
    end.
Proof.
  unfold run, Api.create_student, Api.next_get_db, Api.student_view.
  enter_resolver. rewrite first_filter_id. simpl.
  destruct (colleges_tbl st !! college_id) as [c|] eqn:Hc; simpl; [|done].
  session_calls. by repeat (rewrite lookup_insert_eq; simpl).
Qed.

Lemma update_student_run (id : Z) (name : string) (age : Z) (st : Store) :
  run (Api.update_student id name age) st =
    match students_tbl st !! id with
    | Some s =>
        (Return (mkStudentType (Some id) name age (Student_college_id s)),
         mkStore (colleges_tbl st)
                 (<[id := mkStudent name age (Student_college_id s)]>
                    (students_tbl st)),
         [Acquire; Select Students; Commit])
    | None => (Raise (ValueError "Student not found"), st,
               [Acquire; Select Students])
    end.
Proof.
  unfold run, Api.update_student, Api.next_get_db, Api.student_view.
  enter_resolver. rewrite first_filter_id. simpl.
  destruct (students_tbl st !! id) as [x|] eqn:Hx; simpl; [|done].
  session_calls. rewrite (alter_alter_insert _ _ _ _ _ Hx). simpl.
  by repeat (rewrite lookup_insert_eq; simpl).
Qed.

Lemma delete_student_run (id : Z) (st : Store) :
  run (Api.delete_student id) st =
    match students_tbl st !! id with
    | Some _ => (Return true, delete_row Students id st,
                 [Acquire; Select Students; Delete Students; Commit])
    | None => (Return false, st, [Acquire; Select Students])
    end.
Proof.
  unfold run, Api.delete_student, Api.next_get_db.
  enter_resolver. rewrite first_filter_id. simpl.
  by destruct (students_tbl st !! id).
Qed.

(** The legacy tree. *)

Lemma legacy_colleges_run (st : Store) :
  run Legacy.colleges st
  = (Return (college_views st), st, [Acquire; Select Colleges]).
Proof. apply colleges_run. Qed.

Lemma legacy_students_run (st : Store) :
  run Legacy.students st
  = (Return (student_views st), st, [Acquire; Select Students]).
Proof. apply students_run. Qed.

Lemma legacy_create_college_run (name location : string) (st : Store) :
  run (Legacy.create_college name location) st =
    (Return (mkInstance (Some (alloc (dom (colleges_tbl st))))
                        (mkCollege name location)),
     mkStore (<[alloc (dom (colleges_tbl st)) := mkCollege name location]>
                (colleges_tbl st))
             (students_tbl st),
     [Acquire; Add Colleges; Commit; Refresh Colleges]).
Proof.
  unfold run, Legacy.create_college, Legacy.get_db.
  session_calls. by repeat (rewrite lookup_insert_eq; simpl).
Qed.

Lemma legacy_create_student_run (name : string) (age college_id : Z)
    (st : Store) :
  run (Legacy.create_student name age college_id) st =
    match colleges_tbl st !! college_id with
    | Some _ =>
        (Raise missing_argument,
         mkStore (colleges_tbl st)
                 (<[alloc (dom (students_tbl st))
                    := mkStudent name age (Some college_id)]>
                    (students_tbl st)),
         [Acquire; Select Colleges; Add Students; Commit; Refresh Students])
    | None => (Raise (ValueError "college not found"), st,
               [Acquire; Select Colleges])
    end.
Proof.
  unfold run, Legacy.create_student, Legacy.get_db.
  enter_resolver. rewrite first_filter_id. simpl.
  destruct (colleges_tbl st !! college_id) as [c|] eqn:Hc; simpl; [|done].
  session_calls. by repeat (rewrite lookup_insert_eq; simpl).
Qed.

End closed_forms.

(** ** The claims *)

Section claims.
Context {allocator : Allocator}.

(** C1. [deleteCollege(id)] never raises, on any store and for any id.
    When no College row has that id it returns false and the store is
    the one it started from.  When there is such a row it returns true,
    the colleges table is the old one without that row, no Student row
    is removed, the session was committed, and a second call with the
    same id on the resulting store returns false. *)
Theorem delete_college_contract (id : Z) (st : Store) :
  ∃ (b : bool) (st' : Store) (t : list event),
    run (Api.delete_college id) st = (Return b, st', t)
    ∧ (colleges_tbl st !! id = None → b = false ∧ st' = st)
    ∧ (is_Some (colleges_tbl st !! id) →
       b = true
       ∧ colleges_tbl st' = delete id (colleges_tbl st)
       ∧ dom (students_tbl st') = dom (students_tbl st)
       ∧ Commit ∈ t
       ∧ outcome (run (Api.delete_college id) st') = Return false).
Proof.
  rewrite delete_college_run.
  destruct (colleges_tbl st !! id) as [c|] eqn:Hc.
  - eexists _, _, _. split; [done|]. split; [done|]. intros _.
    split; [done|]. split; [done|]. split.
    { simpl. apply dom_fmap_L. }
    split; [set_solver|].
    rewrite delete_college_run. simpl. by rewrite lookup_delete_eq.
  - eexists _, _, _. split; [done|]. split; [done|].
    intros [c Hc']. congruence.
Qed.

(** C2. [updateCollege(id, name, location)] on an id with no College row
    raises ValueError("College not found"), the NotFound failure, and
    the store is unchanged: the only session calls are the acquisition
    and the lookup, nothing is committed. *)
Theorem update_college_absent (id : Z) (name location : string)
    (st : Store) :
  colleges_tbl st !! id = None →
  run (Api.update_college id name location) st
  = (Raise (ValueError "College not found"), st,
     [Acquire; Select Colleges]).
Proof. intros Hid. by rewrite update_college_run, Hid. Qed.

(** C3. [createStudent(name, age, college_id)] on a store with no College
    row of id [college_id] raises ValueError("College not found"), the
    NotFound failure, and the store is unchanged: no Student row is
    added. *)
Theorem create_student_absent_college (name : string) (age college_id : Z)
    (st : Store) :
  colleges_tbl st !! college_id = None →
  run (Api.create_student name age college_id) st
  = (Raise (ValueError "College not found"), st,
     [Acquire; Select Colleges]).
Proof. intros Hid. by rewrite create_student_run, Hid. Qed.

(** C5. [createCollege(name, location)] succeeds on every store; the id
    of the view it returns is the key of no College row of the store it
    started from, and [colleges()] on the resulting store returns a list
    that holds a view with that id, that name and that location. *)
Theorem create_college_then_colleges (name location : string)
    (st : Store) :
  ∃ (pk : Z) (st' : Store) (views : list CollegeType),
    outcome (run (Api.create_college name location) st)
    = Return (mkCollegeType (Some pk) name location)
    ∧ store_after (run (Api.create_college name location) st) = st'
    ∧ colleges_tbl st !! pk = None
    ∧ outcome (run Api.colleges st') = Return views
    ∧ mkCollegeType (Some pk) name location ∈ views.
Proof.
  rewrite create_college_run. eexists _, _, _.
  split; [done|]. split; [done|]. split.
  { apply not_elem_of_dom, alloc_fresh. }
  rewrite colleges_run. split; [done|].
  unfold college_views. simpl.
  apply (list_elem_of_fmap_2'
           _ _ (alloc (dom (colleges_tbl st)), mkCollege name location));
    [|done].
  apply elem_of_map_to_list, lookup_insert_eq.
Qed.

(** C6. On a store that holds a College of id [C],
    [createStudent(name="Alice", age=21, college_id=C)] succeeds, and
    this for every name and age; [students()] on the resulting store
    returns a list that holds the view of the created student, with that
    name, that age and [college_id == C]. *)
Theorem create_student_round_trip (name : string) (age C : Z)
    (st : Store) :
  is_Some (colleges_tbl st !! C) →
  ∃ (pk : Z) (st' : Store) (views : list StudentType),
    outcome (run (Api.create_student name age C) st)
    = Return (mkStudentType (Some pk) name age (Some C))
    ∧ store_after (run (Api.create_student name age C) st) = st'
    ∧ outcome (run Api.students st') = Return views
    ∧ mkStudentType (Some pk) name age (Some C) ∈ views.
Proof.
  intros [c Hc]. rewrite create_student_run, Hc. eexists _, _, _.
  split; [done|]. split; [done|].
  rewrite students_run. split; [done|].
  unfold student_views. simpl.
  apply (list_elem_of_fmap_2'
           _ _ (alloc (dom (students_tbl st)), mkStudent name age (Some C)));
    [|done].
  apply elem_of_map_to_list, lookup_insert_eq.
Qed.

(** C7. On a store that holds a Student [s] of the given id,
    [updateStudent(id, name, age)] returns the view of that student with
    the new name and age and the [college_id] it had; in the resulting
    store that row has the new name and age and the same [college_id],
    every other Student row and the colleges table are as before.  The
    colleges table is never queried, and nothing is assumed of it: the
    referenced College need not exist. *)
Theorem update_student_frame (id : Z) (name : string) (age : Z)
    (st : Store) (s : Student) :
  students_tbl st !! id = Some s →
  ∃ (st' : Store) (t : list event),
    run (Api.update_student id name age) st
    = (Return (mkStudentType (Some id) name age (Student_college_id s)),
       st', t)
    ∧ students_tbl st' !! id
      = Some (mkStudent name age (Student_college_id s))
    ∧ (∀ j, j ≠ id → students_tbl st' !! j = students_tbl st !! j)
    ∧ colleges_tbl st' = colleges_tbl st
    ∧ count (Select Colleges) t = 0%nat.
Proof.
  intros Hs. rewrite update_student_run, Hs. eexists _, _.
  split; [done|]. simpl. split; [apply lookup_insert_eq|].
  split; [|done]. intros j Hj. by rewrite lookup_insert_ne.
Qed.

(** C10. On a store that holds a College of the given id,
    [updateCollege(id, name, location)] returns a view whose id is the
    input id, with the new name and location; in the resulting store the
    row under that id has the new name and location, every other College
    row is as before, and the students table is as before. *)
Theorem update_college_frame (id : Z) (name location : string)
    (st : Store) :
  is_Some (colleges_tbl st !! id) →
  ∃ (st' : Store) (t : list event),
    run (Api.update_college id name location) st
    = (Return (mkCollegeType (Some id) name location), st', t)
    ∧ colleges_tbl st' !! id = Some (mkCollege name location)
    ∧ (∀ j, j ≠ id → colleges_tbl st' !! j = colleges_tbl st !! j)
    ∧ dom (colleges_tbl st') = dom (colleges_tbl st)
    ∧ students_tbl st' = students_tbl st.
Proof.
  intros [c Hc]. rewrite update_college_run, Hc. eexists _, _.
  split; [done|]. simpl. split; [apply lookup_insert_eq|].
  split; [intros j Hj; by rewrite lookup_insert_ne|].
  split; [|done]. apply dom_insert_lookup_L. by exists c.
Qed.


(** C9, as amended.  On a store that holds a College of id [C],
    [deleteCollege(C)] returns true and removes that College row and no
    Student row: deletion is neither blocked nor cascaded.  A Student
    row whose [college_id] was [C] stays under its id with its name and
    age, and its [college_id] is NULL afterwards; every other Student
    row is as before. *)
Theorem delete_college_keeps_students (C : Z) (st : Store) :
  is_Some (colleges_tbl st !! C) →
  ∃ (st' : Store) (t : list event),
    run (Api.delete_college C) st = (Return true, st', t)
    ∧ colleges_tbl st' = delete C (colleges_tbl st)
    ∧ dom (students_tbl st') = dom (students_tbl st)
    ∧ ∀ (k : Z) (s : Student),
        students_tbl st !! k = Some s →
        students_tbl st' !! k
        = Some (if decide (Student_college_id s = Some C)
                then mkStudent (Student_name s) (Student_age s) None
                else s).
Proof.
  intros [c Hc]. rewrite delete_college_run, Hc. eexists _, _.
  split; [done|]. simpl. split; [done|]. split; [apply dom_fmap_L|].
  intros k s Hs. by rewrite lookup_fmap, Hs.
Qed.

(** C8, as amended.  Every resolver of the primary schema, and every
    resolver of the legacy one, on every store and for every argument,
    acquires exactly one session from the gateway, and on no exit path,
    returning or raising, does it close that session. *)
Theorem resolver_session_calls (q : request) (st : Store) :
  count Acquire (calls (run (Api.schema q) st)) = 1%nat
  ∧ count Close (calls (run (Api.schema q) st)) = 0%nat
  ∧ ∀ m, Legacy.schema q = Some m →
         count Acquire (calls (run m st)) = 1%nat
         ∧ count Close (calls (run m st)) = 0%nat.
Proof.
  destruct q; unfold Api.schema, Legacy.schema;
    rewrite run_fmap; unfold calls; simpl.
  - rewrite colleges_run. split; [done|]. split; [done|].
    intros m [= <-]. by rewrite run_fmap, legacy_colleges_run.
  - by rewrite students_run.
  - rewrite create_college_run. split; [done|]. split; [done|].
    intros m [= <-]. by rewrite run_fmap, legacy_create_college_run.
  - rewrite update_college_run. by destruct (colleges_tbl st !! id).
  - rewrite delete_college_run. by destruct (colleges_tbl st !! id).
  - rewrite create_student_run. split; [|split].
    + by destruct (colleges_tbl st !! college_id).
    + by destruct (colleges_tbl st !! college_id).
    + intros m [= <-]. rewrite run_fmap, legacy_create_student_run.
      by destruct (colleges_tbl st !! college_id).
  - rewrite update_student_run. by destruct (students_tbl st !! id).
  - rewrite delete_student_run. by destruct (students_tbl st !! id).
Qed.

(** C4, as amended.  The legacy tree has resolvers for four of the eight
    operations: [colleges], [students], [create_college] and
    [create_student].  On every store and for every argument, each of
    the two legacy queries returns what the primary one returns, with
    the same session calls, and leaves the store unchanged; each of the
    two legacy mutations makes the session calls of its primary
    counterpart and leaves the same committed store, and
    [create_student] for an absent College raises ValueError in both
    trees after the one lookup, and leaves the store unchanged.  The
    legacy schema resolves [colleges], [createCollege] and
    [createStudent], and none of the update and delete operations. *)
Theorem legacy_tree_agreement (st : Store) :
  (run Legacy.colleges st = run Api.colleges st
   ∧ store_after (run Legacy.colleges st) = st
   ∧ store_after (run Api.colleges st) = st)
  ∧ (run Legacy.students st = run Api.students st
     ∧ store_after (run Legacy.students st) = st
     ∧ store_after (run Api.students st) = st)
  ∧ (∀ name location,
       store_after (run (Legacy.create_college name location) st)
       = store_after (run (Api.create_college name location) st)
       ∧ calls (run (Legacy.create_college name location) st)
         = calls (run (Api.create_college name location) st))
  ∧ (∀ name age college_id,
       store_after (run (Legacy.create_student name age college_id) st)
       = store_after (run (Api.create_student name age college_id) st)
       ∧ calls (run (Legacy.create_student name age college_id) st)
         = calls (run (Api.create_student name age college_id) st)
       ∧ (colleges_tbl st !! college_id = None →
          raises_ValueError
            (outcome (run (Legacy.create_student name age college_id) st))
          ∧ raises_ValueError
              (outcome (run (Api.create_student name age college_id) st))
          ∧ store_after (run (Legacy.create_student name age college_id) st)
            = st
          ∧ store_after (run (Api.create_student name age college_id) st)
            = st
          ∧ calls (run (Legacy.create_student name age college_id) st)
            = [Acquire; Select Colleges]))
  ∧ (∀ q, match q with
          | Colleges_query | Create_college _ _ | Create_student _ _ _ =>
              is_Some (Legacy.schema q)
          | Update_college _ _ _ | Delete_college _
          | Update_student _ _ _ | Delete_student _ =>
              Legacy.schema q = None
          | Students_query => True
          end).
Proof.
  split; [by rewrite legacy_colleges_run, colleges_run|].
  split; [by rewrite legacy_students_run, students_run|].
  split.
  { intros name location.
    by rewrite legacy_create_college_run, create_college_run. }
  split.
  { intros name age college_id.
    rewrite legacy_create_student_run, create_student_run.
    destruct (colleges_tbl st !! college_id); [done|].
    split; [done|]. split; [done|]. by intros _. }
  intros q. by destruct q.
Qed.

End claims.

(** ** Instances of the claims on small stores *)

Lemma update_college_absent_witness :
  run (Api.update_college 1 "Stanford University" "California") empty_store
  = (Raise (ValueError "College not found"), empty_store,
     [Acquire; Select Colleges]).
Proof.
  apply (update_college_absent 1 "Stanford University" "California"
           empty_store).
  reflexivity.
Defined.

Lemma create_student_absent_college_witness :
  run (Api.create_student "Alice" 21 1) empty_store
  = (Raise (ValueError "College not found"), empty_store,
     [Acquire; Select Colleges]).
Proof.
  apply (create_student_absent_college "Alice" 21 1 empty_store).
  reflexivity.
Defined.

Lemma create_student_round_trip_witness :
  ∃ (pk : Z) (st' : Store) (views : list StudentType),
    outcome (run (Api.create_student "Alice" 21 1) one_college)
    = Return (mkStudentType (Some pk) "Alice" 21 (Some 1))
    ∧ store_after (run (Api.create_student "Alice" 21 1) one_college) = st'
    ∧ outcome (run Api.students st') = Return views
    ∧ mkStudentType (Some pk) "Alice" 21 (Some 1) ∈ views.
Proof.
  apply (create_student_round_trip "Alice" 21 1 one_college).
  exists stanford. reflexivity.
Defined.

Lemma update_student_frame_witness :
  ∃ (st' : Store) (t : list event),
    run (Api.update_student 1 "Jorge" 23) dangling_student
    = (Return (mkStudentType (Some 1) "Jorge" 23 (Some 7)), st', t)
    ∧ students_tbl st' !! 1 = Some (mkStudent "Jorge" 23 (Some 7))
    ∧ (∀ j, j ≠ 1 →
         students_tbl st' !! j = students_tbl dangling_student !! j)
    ∧ colleges_tbl st' = colleges_tbl dangling_student
    ∧ count (Select Colleges) t = 0%nat.
Proof.
  apply (update_student_frame 1 "Jorge" 23 dangling_student
           (mkStudent "Alice" 21 (Some 7))).
  reflexivity.
Defined.

Lemma update_college_frame_witness :
  ∃ (st' : Store) (t : list event),
    run (Api.update_college 1 "Stanford University" "Palo Alto")
        college_with_student
    = (Return (mkCollegeType (Some 1) "Stanford University" "Palo Alto"),
       st', t)
    ∧ colleges_tbl st' !! 1
      = Some (mkCollege "Stanford University" "Palo Alto")
    ∧ (∀ j, j ≠ 1 →
         colleges_tbl st' !! j = colleges_tbl college_with_student !! j)
    ∧ dom (colleges_tbl st') = dom (colleges_tbl college_with_student)
    ∧ students_tbl st' = students_tbl college_with_student.
Proof.
  apply (update_college_frame 1 "Stanford University" "Palo Alto"
           college_with_student).
  exists stanford. reflexivity.
Defined.

Lemma delete_college_keeps_students_witness :
  ∃ (st' : Store) (t : list event),
    run (Api.delete_college 1) college_with_student = (Return true, st', t)
    ∧ colleges_tbl st' = delete 1 (colleges_tbl college_with_student)
    ∧ dom (students_tbl st') = dom (students_tbl college_with_student)
    ∧ ∀ (k : Z) (s : Student),
        students_tbl college_with_student !! k = Some s →
        students_tbl st' !! k
        = Some (if decide (Student_college_id s = Some 1)
                then mkStudent (Student_name s) (Student_age s) None
                else s).
Proof.
  apply (delete_college_keeps_students 1 college_with_student).
  exists stanford. reflexivity.
Defined.

(** C9, the claim as stated fails: Alice is a student of College 1;
    after [deleteCollege(1)] her row is still there and its
    [college_id] is NULL, not 1. *)
Lemma delete_college_nulls_college_id :
  students_tbl college_with_student !! 1
  = Some (mkStudent "Alice" 21 (Some 1))
  ∧ outcome (run (Api.delete_college 1) college_with_student) = Return true
  ∧ students_tbl (store_after (run (Api.delete_college 1)
                                   college_with_student)) !! 1
    = Some (mkStudent "Alice" 21 None).
Proof. by vm_compute. Qed.

(** C8, the claim as stated fails: [colleges()] returns, and
    [updateCollege] on an empty store raises, without a [close] among
    the session calls. *)
Lemma session_left_open :
  run Api.colleges empty_store
  = (Return [], empty_store, [Acquire; Select Colleges])
  ∧ run (Api.update_college 1 "Stanford" "California") empty_store
    = (Raise (ValueError "College not found"), empty_store,
       [Acquire; Select Colleges])
  ∧ count Close [Acquire; Select Colleges] = 0%nat.
Proof. by vm_compute. Qed.

(** C4, the claim as stated fails: on a store with College 1 the legacy
    [create_student] raises [TypeError] where the primary one returns
    the view; the legacy [create_college] returns a mapped instance
    where the primary one returns a [CollegeType]; and the legacy schema
    has no [deleteCollege]. *)
Lemma legacy_tree_differs :
  outcome (run (Legacy.create_student "Alice" 21 1) one_college)
  = Raise missing_argument
  ∧ outcome (run (Api.create_student "Alice" 21 1) one_college)
    = Return (mkStudentType (Some 1) "Alice" 21 (Some 1))
  ∧ outcome <$> Legacy.resolve (Create_college "MIT" "Cambridge") one_college
    = Some (Return (College_instance
                      (mkInstance (Some 2) (mkCollege "MIT" "Cambridge"))))
  ∧ outcome (run (Api.schema (Create_college "MIT" "Cambridge")) one_college)
    = Return (College_object (mkCollegeType (Some 2) "MIT" "Cambridge"))
  ∧ Legacy.resolve (Delete_college 1) one_college = None.
Proof. by vm_compute. Qed.

(** ** Further properties of the resolvers *)

Lemma college_views_elem (st : Store) (id : Z) (name location : string) :
  mkCollegeType (Some id) name location ∈ college_views st
  ↔ colleges_tbl st !! id = Some (mkCollege name location).
Proof.
  unfold college_views. rewrite list_elem_of_fmap. split.
  - intros [[k [n l]] [Heq Hin]]. simpl in Heq. injection Heq as -> -> ->.
    by apply elem_of_map_to_list.
  - intros Hrow. exists (id, mkCollege name location). split; [done|].
    by apply elem_of_map_to_list.
Qed.

Lemma student_views_elem (st : Store) (id : Z) (name : string) (age : Z)
    (college_id : option Z) :
  mkStudentType (Some id) name age college_id ∈ student_views st
  ↔ students_tbl st !! id = Some (mkStudent name age college_id).
Proof.
  unfold student_views. rewrite list_elem_of_fmap. split.
  - intros [[k [n a c]] [Heq Hin]]. simpl in Heq.
    injection Heq as -> -> -> ->. by apply elem_of_map_to_list.
  - intros Hrow. exists (id, mkStudent name age college_id).
    split; [done|]. by apply elem_of_map_to_list.
Qed.

Lemma college_views_ids (st : Store) :
  CollegeType_id <$> college_views st
  = Some <$> (map_to_list (colleges_tbl st)).*1.
Proof.
  unfold college_views. rewrite <- !list_fmap_compose.
  by apply list_fmap_ext.
Qed.

Lemma student_views_ids (st : Store) :
  StudentType_id <$> student_views st
  = Some <$> (map_to_list (students_tbl st)).*1.
Proof.
  unfold student_views. rewrite <- !list_fmap_compose.
  by apply list_fmap_ext.
Qed.

Section extras.
Context {allocator : Allocator}.

(** X1. [colleges()] only reads: on every store it returns, leaves the
    store as it was and commits nothing.  The list has one view per
    College row, no two views share an id, and a view [(id, name,
    location)] is in the list exactly when the row under [id] holds that
    name and location; on an empty table the list is empty. *)
Theorem colleges_lists_every_row (st : Store) :
  ∃ views : list CollegeType,
    run Api.colleges st = (Return views, st, [Acquire; Select Colleges])
    ∧ length views = size (colleges_tbl st)
    ∧ NoDup (CollegeType_id <$> views)
    ∧ ∀ id name location,
        mkCollegeType (Some id) name location ∈ views
        ↔ colleges_tbl st !! id = Some (mkCollege name location).
Proof.
  exists (college_views st). split; [apply colleges_run|].
  split.
  { unfold college_views. by rewrite length_fmap, length_map_to_list. }
  split.
  { rewrite college_views_ids. apply (NoDup_fmap_2 _).
    apply NoDup_fst_map_to_list. }
  apply college_views_elem.
Qed.

(** X2. [students()] only reads: on every store it returns, leaves the
    store as it was and commits nothing.  The list has one view per
    Student row, no two views share an id, and a view [(id, name, age,
    college_id)] is in the list exactly when the row under [id] holds
    those values. *)
Theorem students_lists_every_row (st : Store) :
  ∃ views : list StudentType,
    run Api.students st = (Return views, st, [Acquire; Select Students])
    ∧ length views = size (students_tbl st)
    ∧ NoDup (StudentType_id <$> views)
    ∧ ∀ id name age college_id,
        mkStudentType (Some id) name age college_id ∈ views
        ↔ students_tbl st !! id = Some (mkStudent name age college_id).
Proof.
  exists (student_views st). split; [apply students_run|].
  split.
  { unfold student_views. by rewrite length_fmap, length_map_to_list. }
  split.
  { rewrite student_views_ids. apply (NoDup_fmap_2 _).
    apply NoDup_fst_map_to_list. }
  apply student_views_elem.
Qed.


(** X3. [deleteStudent(id)] never raises.  With no Student row of that
    id it returns false, changes nothing and commits nothing.  With such
    a row it returns true, the students table is the old one without
    that row, the colleges table is untouched, it commits once, and a
    second call with the same id returns false. *)
Theorem delete_student_contract (id : Z) (st : Store) :
  ∃ (b : bool) (st' : Store) (t : list event),
    run (Api.delete_student id) st = (Return b, st', t)
    ∧ (students_tbl st !! id = None →
       b = false ∧ st' = st ∧ count Commit t = 0%nat)
    ∧ (is_Some (students_tbl st !! id) →
       b = true
       ∧ students_tbl st' = delete id (students_tbl st)
       ∧ colleges_tbl st' = colleges_tbl st
       ∧ count Commit t = 1%nat
       ∧ outcome (run (Api.delete_student id) st') = Return false).
Proof.
  rewrite delete_student_run.
  destruct (students_tbl st !! id) as [x|] eqn:Hx.
  - eexists _, _, _. split; [done|]. split; [done|]. intros _.
    do 4 (split; [done|]).
    rewrite delete_student_run. simpl. by rewrite lookup_delete_eq.
  - eexists _, _, _. split; [done|]. split; [done|].
    intros [x Hx']. congruence.
Qed.

(** X4. [updateStudent(id, name, age)] on an id with no Student row
    raises ValueError("Student not found") right after the lookup; the
    store is unchanged and nothing is committed. *)
Theorem update_student_absent (id : Z) (name : string) (age : Z)
    (st : Store) :
  students_tbl st !! id = None →
  run (Api.update_student id name age) st
  = (Raise (ValueError "Student not found"), st,
     [Acquire; Select Students]).
Proof. intros Hid. by rewrite update_student_run, Hid. Qed.

(** X5. [createCollege(name, location)] adds exactly one row: the new
    id was the key of no College row, the row under it holds the given
    name and location, every other College row is as before, the table
    has one row more, the students table is untouched, and the call
    commits once. *)
Theorem create_college_frame (name location : string) (st : Store) :
  ∃ (pk : Z) (st' : Store) (t : list event),
    run (Api.create_college name location) st
    = (Return (mkCollegeType (Some pk) name location), st', t)
    ∧ colleges_tbl st !! pk = None
    ∧ colleges_tbl st' !! pk = Some (mkCollege name location)
    ∧ (∀ j, j ≠ pk → colleges_tbl st' !! j = colleges_tbl st !! j)
    ∧ size (colleges_tbl st') = S (size (colleges_tbl st))
    ∧ students_tbl st' = students_tbl st
    ∧ count Commit t = 1%nat.
Proof.
  rewrite create_college_run. eexists _, _, _. split; [done|].
  assert (Hfresh : colleges_tbl st !! alloc (dom (colleges_tbl st)) = None)
    by apply not_elem_of_dom, alloc_fresh.
  split; [done|]. simpl. split; [apply lookup_insert_eq|].
  split; [intros j Hj; by rewrite lookup_insert_ne|].
  split; [by apply map_size_insert_None|]. done.
Qed.

(** X6. [createStudent(name, age, college_id)] for an existing College
    adds exactly one row: the new id was the key of no Student row, the
    row under it holds the given name, age and college_id, every other
    Student row is as before, the table has one row more, the colleges
    table is untouched, and the call commits once. *)
Theorem create_student_frame (name : string) (age college_id : Z)
    (st : Store) :
  is_Some (colleges_tbl st !! college_id) →
  ∃ (pk : Z) (st' : Store) (t : list event),
    run (Api.create_student name age college_id) st
    = (Return (mkStudentType (Some pk) name age (Some college_id)), st', t)
    ∧ students_tbl st !! pk = None
    ∧ students_tbl st' !! pk = Some (mkStudent name age (Some college_id))
    ∧ (∀ j, j ≠ pk → students_tbl st' !! j = students_tbl st !! j)
    ∧ size (students_tbl st') = S (size (students_tbl st))
    ∧ colleges_tbl st' = colleges_tbl st
    ∧ count Commit t = 1%nat.
Proof.
  intros [c Hc]. rewrite create_student_run, Hc. eexists _, _, _.
  split; [done|].
  assert (Hfresh : students_tbl st !! alloc (dom (students_tbl st)) = None)
    by apply not_elem_of_dom, alloc_fresh.
  split; [done|]. simpl. split; [apply lookup_insert_eq|].
  split; [intros j Hj; by rewrite lookup_insert_ne|].
  split; [by apply map_size_insert_None|]. done.
Qed.

(** X7. Names are not unique: calling [createCollege] twice with the
    same name and location succeeds both times, the two ids differ, and
    [colleges()] lists both views. *)
Theorem create_college_same_name_twice (name location : string)
    (st : Store) :
  ∃ (pk1 pk2 : Z) (st1 st2 : Store) (views : list CollegeType),
    outcome (run (Api.create_college name location) st)
    = Return (mkCollegeType (Some pk1) name location)
    ∧ store_after (run (Api.create_college name location) st) = st1
    ∧ outcome (run (Api.create_college name location) st1)
      = Return (mkCollegeType (Some pk2) name location)
    ∧ store_after (run (Api.create_college name location) st1) = st2
    ∧ pk1 ≠ pk2
    ∧ outcome (run Api.colleges st2) = Return views
    ∧ mkCollegeType (Some pk1) name location ∈ views
    ∧ mkCollegeType (Some pk2) name location ∈ views.
Proof.
  rewrite create_college_run. eexists _, _, _, _, _.
  split; [done|]. split; [done|].
  rewrite create_college_run. split; [done|]. split; [done|].
  rewrite colleges_run. simpl.
  set (pk1 := alloc (dom (colleges_tbl st))).
  set (pk2 := alloc (dom (<[pk1 := mkCollege name location]>
                            (colleges_tbl st)))).
  assert (Hne : pk1 ≠ pk2).
  { intros Heq. apply (alloc_fresh (dom (<[pk1 := mkCollege name location]>
                                           (colleges_tbl st)))).
    fold pk2. rewrite <- Heq. apply elem_of_dom.
    rewrite lookup_insert_eq. by eexists. }
  split; [done|]. split; [done|]. split.
  - apply college_views_elem. simpl.
    rewrite lookup_insert_ne by done. apply lookup_insert_eq.
  - apply college_views_elem. simpl. apply lookup_insert_eq.
Qed.


(** X8. For an existing College, a second [updateCollege] on the same
    id overwrites the first: its result and the store it leaves are
    those of the second update run alone, and afterwards [colleges()]
    lists one view with that id, holding the second name and
    location. *)
Theorem update_college_last_write_wins (id : Z)
    (name1 location1 name2 location2 : string) (st : Store) :
  is_Some (colleges_tbl st !! id) →
  ∃ (st1 : Store) (views : list CollegeType),
    store_after (run (Api.update_college id name1 location1) st) = st1
    ∧ run (Api.update_college id name2 location2) st1
      = run (Api.update_college id name2 location2) st
    ∧ outcome (run Api.colleges
                 (store_after (run (Api.update_college id name2 location2)
                                   st1)))
      = Return views
    ∧ ∀ name location,
        mkCollegeType (Some id) name location ∈ views
        ↔ name = name2 ∧ location = location2.
Proof.
  intros [c Hc]. eexists _, _. split; [done|].
  rewrite (update_college_run id name1 location1), Hc. simpl.
  rewrite !update_college_run. simpl. rewrite lookup_insert_eq, Hc.
  rewrite insert_insert_eq. split; [done|].
  rewrite colleges_run. split; [done|].
  intros name location. rewrite college_views_elem. simpl.
  rewrite lookup_insert_eq. split.
  - by intros [= -> ->].
  - by intros [-> ->].
Qed.

(** X9. After [deleteCollege(id)], whether or not the row existed,
    [colleges()] lists the views of the College rows that were there
    under another id, and no view with that id. *)
Theorem delete_college_then_colleges (id : Z) (st : Store) :
  ∃ views : list CollegeType,
    outcome (run Api.colleges
               (store_after (run (Api.delete_college id) st)))
    = Return views
    ∧ ∀ j name location,
        mkCollegeType (Some j) name location ∈ views
        ↔ j ≠ id ∧ colleges_tbl st !! j = Some (mkCollege name location).
Proof.
  eexists. rewrite colleges_run. split; [done|].
  intros j name location. rewrite college_views_elem.
  rewrite delete_college_run.
  destruct (colleges_tbl st !! id) as [c|] eqn:Hc;
    unfold store_after; simpl.
  - rewrite lookup_delete_Some. split.
    + intros [Hne Hj]. by split.
    + intros [Hne Hj]. by split.
  - split; [|by intros [_ Hj]]. intros Hj. split; [|done].
    intros Heq. by rewrite Heq, Hc in Hj.
Qed.

(** X10. A resolver of the primary schema raises exactly when the row
    its guard looks up is missing: [updateCollege] on an absent id,
    [createStudent] for an absent College, [updateStudent] on an absent
    id.  The two queries, [createCollege] and the two deletes return on
    every store. *)
Theorem resolver_fails_iff_target_missing (q : request) (st : Store) :
  (∃ e, outcome (run (Api.schema q) st) = Raise e) ↔ target_missing q st.
Proof.
  destruct q; unfold Api.schema; rewrite run_fmap; unfold outcome; simpl.
  - rewrite colleges_run. simpl. split; [by intros [e ?]|done].
  - rewrite students_run. simpl. split; [by intros [e ?]|done].
  - rewrite create_college_run. simpl. split; [by intros [e ?]|done].
  - rewrite update_college_run.
    destruct (colleges_tbl st !! id); simpl.
    + split; [by intros [e ?]|done].
    + split; [done|]. intros _. by eexists.
  - rewrite delete_college_run.
    destruct (colleges_tbl st !! id); simpl;
      (split; [by intros [e ?]|done]).
  - rewrite create_student_run.
    destruct (colleges_tbl st !! college_id); simpl.
    + split; [by intros [e ?]|done].
    + split; [done|]. intros _. by eexists.
  - rewrite update_student_run.
    destruct (students_tbl st !! id); simpl.
    + split; [by intros [e ?]|done].
    + split; [done|]. intros _. by eexists.
  - rewrite delete_student_run.
    destruct (students_tbl st !! id); simpl;
      (split; [by intros [e ?]|done]).
Qed.

(** X11. Whenever a resolver of the primary schema raises, the exception
    is ValueError("College not found") or ValueError("Student not
    found"), the store is the one the call started from, and nothing
    was committed. *)
Theorem failure_changes_nothing (q : request) (st : Store) (e : exn) :
  outcome (run (Api.schema q) st) = Raise e →
  (e = ValueError "College not found" ∨ e = ValueError "Student not found")
  ∧ store_after (run (Api.schema q) st) = st
  ∧ count Commit (calls (run (Api.schema q) st)) = 0%nat.
Proof.
  destruct q; unfold Api.schema; rewrite run_fmap;
    unfold outcome, store_after, calls; simpl.
  - by rewrite colleges_run.
  - by rewrite students_run.
  - by rewrite create_college_run.
  - rewrite update_college_run.
    destruct (colleges_tbl st !! id); simpl; [done|].
    intros [= <-]. split; [by left|done].
  - rewrite delete_college_run. by destruct (colleges_tbl st !! id).
  - rewrite create_student_run.
    destruct (colleges_tbl st !! college_id); simpl; [done|].
    intros [= <-]. split; [by left|done].
  - rewrite update_student_run.
    destruct (students_tbl st !! id); simpl; [done|].
    intros [= <-]. split; [by right|done].
  - rewrite delete_student_run. by destruct (students_tbl st !! id).
Qed.

(** X12. A call of any resolver of the primary schema commits at most
    once, and a call that does not commit leaves the store as it
    was. *)
Theorem one_transaction_per_call (q : request) (st : Store) :
  (count Commit (calls (run (Api.schema q) st)) ≤ 1)%nat
  ∧ (count Commit (calls (run (Api.schema q) st)) = 0%nat →
     store_after (run (Api.schema q) st) = st).
Proof.
  destruct q; unfold Api.schema; rewrite run_fmap;
    unfold store_after, calls; simpl.
  - rewrite colleges_run. simpl. split; [vm_compute; lia|done].
  - rewrite students_run. simpl. split; [vm_compute; lia|done].
  - rewrite create_college_run. simpl. split; [vm_compute; lia|]. by intros [=].
  - rewrite update_college_run.
    destruct (colleges_tbl st !! id); simpl.
    + split; [vm_compute; lia|]. by intros [=].
    + split; [vm_compute; lia|done].
  - rewrite delete_college_run.
    destruct (colleges_tbl st !! id); simpl.
    + split; [vm_compute; lia|]. by intros [=].
    + split; [vm_compute; lia|done].
  - rewrite create_student_run.
    destruct (colleges_tbl st !! college_id); simpl.
    + split; [vm_compute; lia|]. by intros [=].
    + split; [vm_compute; lia|done].
  - rewrite update_student_run.
    destruct (students_tbl st !! id); simpl.
    + split; [vm_compute; lia|]. by intros [=].
    + split; [vm_compute; lia|done].
  - rewrite delete_student_run.
    destruct (students_tbl st !! id); simpl.
    + split; [vm_compute; lia|]. by intros [=].
    + split; [vm_compute; lia|done].
Qed.


(** X13. If every Student's [college_id] is NULL or the id of a College
    row, this still holds after any request of the primary schema:
    [createStudent] checks the College, the updates do not touch
    [college_id] or the key sets, and deleting a College de-associates
    its students. *)
Theorem referential_integrity_preserved (q : request) (st : Store) :
  referential_integrity st →
  referential_integrity (store_after (run (Api.schema q) st)).
Proof.
  intros HI. unfold referential_integrity in *.
  rewrite map_Forall_lookup in HI.
  destruct q; unfold Api.schema; rewrite run_fmap;
    unfold store_after; simpl.
  - rewrite colleges_run. by apply map_Forall_lookup.
  - rewrite students_run. by apply map_Forall_lookup.
  - rewrite create_college_run. simpl.
    apply map_Forall_lookup. intros k s Hs. specialize (HI k s Hs).
    destruct (Student_college_id s) as [cid|]; [|done].
    apply lookup_insert_is_Some'. by right.
  - rewrite update_college_run.
    destruct (colleges_tbl st !! id) eqn:Hid; simpl;
      [|by apply map_Forall_lookup].
    apply map_Forall_lookup. intros k s Hs. specialize (HI k s Hs).
    destruct (Student_college_id s) as [cid|]; [|done].
    apply lookup_insert_is_Some'. by right.
  - rewrite delete_college_run.
    destruct (colleges_tbl st !! id) eqn:Hid; simpl;
      [|by apply map_Forall_lookup].
    apply map_Forall_lookup. intros k s Hs.
    rewrite lookup_fmap in Hs.
    destruct (students_tbl st !! k) as [s0|] eqn:Hs0; [|done].
    simpl in Hs. injection Hs as <-. specialize (HI k s0 Hs0).
    unfold nullify_college. case_decide as Hdep; [done|].
    destruct (Student_college_id s0) as [cid|]; [|done].
    rewrite lookup_delete_ne; [done|]. congruence.
  - rewrite create_student_run.
    destruct (colleges_tbl st !! college_id) eqn:Hid; simpl;
      [|by apply map_Forall_lookup].
    apply map_Forall_insert_2; [|by apply map_Forall_lookup].
    simpl. by rewrite Hid.
  - rewrite update_student_run.
    destruct (students_tbl st !! id) as [s0|] eqn:Hid; simpl;
      [|by apply map_Forall_lookup].
    apply map_Forall_insert_2; [|by apply map_Forall_lookup].
    simpl. apply (HI id s0 Hid).
  - rewrite delete_student_run.
    destruct (students_tbl st !! id) eqn:Hid; simpl;
      [|by apply map_Forall_lookup].
    apply map_Forall_delete. by apply map_Forall_lookup.
Qed.

(** X14. For an existing College, [createStudent] followed by
    [deleteStudent] of the id it returned gives true and the store the
    two calls started from. *)
Theorem create_then_delete_student (name : string) (age college_id : Z)
    (st : Store) :
  is_Some (colleges_tbl st !! college_id) →
  ∃ (pk : Z) (st1 : Store),
    outcome (run (Api.create_student name age college_id) st)
    = Return (mkStudentType (Some pk) name age (Some college_id))
    ∧ store_after (run (Api.create_student name age college_id) st) = st1
    ∧ outcome (run (Api.delete_student pk) st1) = Return true
    ∧ store_after (run (Api.delete_student pk) st1) = st.
Proof.
  intros [c Hc]. rewrite create_student_run, Hc. eexists _, _.
  split; [done|]. split; [done|].
  rewrite delete_student_run. unfold outcome, store_after. simpl.
  rewrite lookup_insert_eq. simpl. split; [done|].
  rewrite delete_insert_id by apply not_elem_of_dom, alloc_fresh.
  by destruct st.
Qed.

(** X15. [createCollege] followed by [deleteCollege] of the id it
    returned gives true and the colleges table the two calls started
    from; when every [college_id] of the store referenced an existing
    College (or was NULL), the whole store is as before. *)
Theorem create_then_delete_college (name location : string) (st : Store) :
  ∃ (pk : Z) (st1 st2 : Store),
    outcome (run (Api.create_college name location) st)
    = Return (mkCollegeType (Some pk) name location)
    ∧ store_after (run (Api.create_college name location) st) = st1
    ∧ outcome (run (Api.delete_college pk) st1) = Return true
    ∧ store_after (run (Api.delete_college pk) st1) = st2
    ∧ colleges_tbl st2 = colleges_tbl st
    ∧ (referential_integrity st → st2 = st).
Proof.
  rewrite create_college_run. eexists _, _, _.
  split; [done|]. split; [done|].
  rewrite delete_college_run. unfold outcome, store_after. simpl.
  rewrite lookup_insert_eq. simpl. split; [done|]. split; [done|].
  assert (Hfresh : colleges_tbl st !! alloc (dom (colleges_tbl st)) = None)
    by apply not_elem_of_dom, alloc_fresh.
  rewrite delete_insert_id by done. split; [done|].
  intros HI. unfold referential_integrity in HI.
  rewrite map_Forall_lookup in HI.
  assert (Hsame : nullify_college (alloc (dom (colleges_tbl st)))
                    <$> students_tbl st = students_tbl st).
  { apply map_eq. intros k. rewrite lookup_fmap.
    destruct (students_tbl st !! k) as [s|] eqn:Hs; [|done]. simpl.
    f_equal. unfold nullify_college. case_decide as Hdep; [|done].
    specialize (HI k s Hs). rewrite Hdep in HI.
    rewrite Hfresh in HI. by destruct HI. }
  rewrite Hsame. by destruct st.
Qed.

(** X16. The legacy [create_student] returns on no input.  For an absent
    College it raises ValueError("college not found") and changes
    nothing; for an existing College it raises TypeError, from building
    [StudentType] without [age], after the commit: the colleges table is
    as before and the students table has the new row under an id that
    was free. *)
Theorem legacy_create_student_never_returns (name : string)
    (age college_id : Z) (st : Store) :
  ∃ (e : exn) (st' : Store),
    outcome (run (Legacy.create_student name age college_id) st) = Raise e
    ∧ store_after (run (Legacy.create_student name age college_id) st) = st'
    ∧ (colleges_tbl st !! college_id = None →
       e = ValueError "college not found" ∧ st' = st)
    ∧ (is_Some (colleges_tbl st !! college_id) →
       e = missing_argument
       ∧ colleges_tbl st' = colleges_tbl st
       ∧ ∃ pk, students_tbl st !! pk = None
               ∧ students_tbl st'
                 = <[pk := mkStudent name age (Some college_id)]>
                     (students_tbl st)).
Proof.
  rewrite legacy_create_student_run.
  destruct (colleges_tbl st !! college_id) as [c|] eqn:Hc.
  - eexists _, _. split; [done|]. split; [done|]. split; [done|].
    intros _. split; [done|]. split; [done|]. eexists. split; [|done].
    apply not_elem_of_dom, alloc_fresh.
  - eexists _, _. split; [done|]. split; [done|]. split; [done|].
    intros [c Hc']. congruence.
Qed.

(** X17. The legacy [create_college] succeeds on every store: it returns
    a College instance with the given name and location and an id that
    was the key of no College row, leaves the students table alone, and
    the legacy [colleges()] on the resulting store lists a view with
    that id, name and location. *)
Theorem legacy_create_college_then_colleges (name location : string)
    (st : Store) :
  ∃ (pk : Z) (st' : Store) (views : list CollegeType),
    outcome (run (Legacy.create_college name location) st)
    = Return (mkInstance (Some pk) (mkCollege name location))
    ∧ store_after (run (Legacy.create_college name location) st) = st'
    ∧ colleges_tbl st !! pk = None
    ∧ students_tbl st' = students_tbl st
    ∧ outcome (run Legacy.colleges st') = Return views
    ∧ mkCollegeType (Some pk) name location ∈ views.
Proof.
  rewrite legacy_create_college_run. eexists _, _, _.
  split; [done|]. split; [done|].
  split; [apply not_elem_of_dom, alloc_fresh|]. split; [done|].
  rewrite legacy_colleges_run. split; [done|].
  apply college_views_elem. apply lookup_insert_eq.
Qed.

End extras.

(** ** Instances on small stores *)

Lemma update_student_absent_witness :
  run (Api.update_student 1 "Jorge" 23) one_college
  = (Raise (ValueError "Student not found"), one_college,
     [Acquire; Select Students]).
Proof.
  apply (update_student_absent 1 "Jorge" 23 one_college). reflexivity.
Defined.

Lemma create_student_frame_witness :
  ∃ (pk : Z) (st' : Store) (t : list event),
    run (Api.create_student "Bob" 22 1) college_with_student
    = (Return (mkStudentType (Some pk) "Bob" 22 (Some 1)), st', t)
    ∧ students_tbl college_with_student !! pk = None
    ∧ students_tbl st' !! pk = Some (mkStudent "Bob" 22 (Some 1))
    ∧ (∀ j, j ≠ pk →
         students_tbl st' !! j = students_tbl college_with_student !! j)
    ∧ size (students_tbl st') = S (size (students_tbl college_with_student))
    ∧ colleges_tbl st' = colleges_tbl college_with_student
    ∧ count Commit t = 1%nat.
Proof.
  apply (create_student_frame "Bob" 22 1 college_with_student).
  exists stanford. reflexivity.
Defined.

Lemma update_college_last_write_wins_witness :
  ∃ (st1 : Store) (views : list CollegeType),
    store_after (run (Api.update_college 1 "Leland" "Palo Alto")
                     one_college) = st1
    ∧ run (Api.update_college 1 "Stanford University" "California") st1
      = run (Api.update_college 1 "Stanford University" "California")
            one_college
    ∧ outcome (run Api.colleges
                 (store_after
                    (run (Api.update_college 1 "Stanford University"
                                             "California") st1)))
      = Return views
    ∧ ∀ name location,
        mkCollegeType (Some 1) name location ∈ views
        ↔ name = "Stanford University" ∧ location = "California".
Proof.
  apply (update_college_last_write_wins 1 "Leland" "Palo Alto"
           "Stanford University" "California" one_college).
  exists stanford. reflexivity.
Defined.

Lemma failure_changes_nothing_witness :
  (ValueError "Student not found" = ValueError "College not found"
   ∨ ValueError "Student not found" = ValueError "Student not found")
  ∧ store_after (run (Api.schema (Update_student 1 "Jorge" 23))
                     one_college) = one_college
  ∧ count Commit (calls (run (Api.schema (Update_student 1 "Jorge" 23))
                             one_college)) = 0%nat.
Proof.
  apply (failure_changes_nothing (Update_student 1 "Jorge" 23) one_college
           (ValueError "Student not found")).
  reflexivity.
Defined.

Lemma referential_integrity_preserved_witness :
  referential_integrity college_with_student
  ∧ referential_integrity
      (store_after (run (Api.schema (Delete_college 1))
                        college_with_student)).
Proof.
  assert (HI : referential_integrity college_with_student)
    by (apply (bool_decide_unpack _); vm_compute; exact I).
  split; [exact HI|].
  apply (referential_integrity_preserved (Delete_college 1)
           college_with_student HI).
Defined.

Lemma create_then_delete_student_witness :
  ∃ (pk : Z) (st1 : Store),
    outcome (run (Api.create_student "Alice" 21 1) one_college)
    = Return (mkStudentType (Some pk) "Alice" 21 (Some 1))
    ∧ store_after (run (Api.create_student "Alice" 21 1) one_college) = st1
    ∧ outcome (run (Api.delete_student pk) st1) = Return true
    ∧ store_after (run (Api.delete_student pk) st1) = one_college.
Proof.
  apply (create_then_delete_student "Alice" 21 1 one_college).
  exists stanford. reflexivity.
Defined.
